(** * ice_breaker: a shallow embedding of the pipeline and its properties

    The program turns a person's name into a short structured summary:
    [agents/linkedin_lookup_agent.py] resolves a profile URL, [linkedin.py]
    fetches and cleans the profile document, [output_parsers.py] declares the
    [Summary] schema and [ice_breaker.py] sequences the three.

    Everything behind a network call or a library object (the agent executor,
    [requests.get], the chat model, the output parser) is a collaborator of
    the program and appears here as a field of [externals]; the code of the
    repository itself is translated function by function. *)

From Stdlib Require Import String Ascii ZArith Bool Lia List.
Import ListNotations.
Open Scope string_scope.
Open Scope list_scope.
Set Warnings "-register-all".

(** ** Python values, exceptions and effects *)

Module Py.

(** A Python [float] is an IEEE double: a finite one is exactly [m * 2^e]. *)
Inductive pyfloat : Type :=
| FFinite (m e : Z)
| FInf (negative : bool)
| FNaN.

(** The values [json.loads] can produce. A [PDict] lists its items in
    insertion order; the keys of a real dict are pairwise distinct. *)
Inductive pyval : Type :=
| PNone
| PBool (b : bool)
| PInt (z : Z)
| PFloat (f : pyfloat)
| PStr (s : string)
| PList (l : list pyval)
| PDict (d : list (string * pyval)).

Definition pydict : Type := list (string * pyval).

(** [d.get(k)] on the items of a dict. *)
Fixpoint assoc_get {A : Type} (k : string) (d : list (string * A)) : option A :=
  match d with
  | [] => None
  | (k', v) :: d' => if String.eqb k k' then Some v else assoc_get k d'
  end.

(** [bool], [int] and [float] compare by numeric value. *)
Definition numeric (v : pyval) : option pyfloat :=
  match v with
  | PBool b => Some (FFinite (if b then 1 else 0) 0)
  | PInt z => Some (FFinite z 0)
  | PFloat f => Some f
  | _ => None
  end.

Definition float_eq (x y : pyfloat) : bool :=
  match x, y with
  | FFinite m1 e1, FFinite m2 e2 =>
      let e := Z.min e1 e2 in
      (m1 * 2 ^ (e1 - e) =? m2 * 2 ^ (e2 - e))%Z
  | FInf a, FInf b => Bool.eqb a b
  | _, _ => false
  end.

(** Python's [a == b] on decoded JSON: values of different kinds are never
    equal (numbers apart), lists compare element by element, dicts key by
    key whatever the order. *)
Fixpoint py_eq (a b : pyval) {struct a} : bool :=
  match a, b with
  | PNone, PNone => true
  | PStr s, PStr t => String.eqb s t
  | PList l, PList m =>
      (fix all2 (l m : list pyval) : bool :=
         match l, m with
         | [], [] => true
         | x :: l', y :: m' => py_eq x y && all2 l' m'
         | _, _ => false
         end) l m
  | PDict d, PDict e =>
      Nat.eqb (length d) (length e) &&
      (fix each (d : list (string * pyval)) : bool :=
         match d with
         | [] => true
         | (k, v) :: d' =>
             match assoc_get k e with
             | Some w => py_eq v w
             | None => false
             end && each d'
         end) d
  | _, _ =>
      match numeric a, numeric b with
      | Some x, Some y => float_eq x y
      | _, _ => false
      end
  end.

(** [v in (e1, ..., en)]: some element is (identical or) equal to [v]. *)
Definition py_in (v : pyval) (candidates : list pyval) : bool :=
  existsb (py_eq v) candidates.

(** [k in [s1, ..., sn]] for strings. *)
Definition str_in (k : string) (candidates : list string) : bool :=
  existsb (String.eqb k) candidates.

(** Exceptions: the two built-in ones the repository's own statements can
    raise, and whatever a collaborator raises, by class name. *)
Inductive exn : Type :=
| AttributeError (what : string)
| KeyError (key : string)
| Raised (class_name : string) (message : string).

Definition exn_name (e : exn) : string :=
  match e with
  | AttributeError _ => "AttributeError"
  | KeyError _ => "KeyError"
  | Raised c _ => c
  end.

Inductive result (A : Type) : Type :=
| Ok (a : A)
| Raise (e : exn).

Arguments Ok {A} a.
Arguments Raise {A} e.

(** [v.get(k)]: only a dict has the method; a missing key gives [None]. *)
Definition py_get (v : pyval) (k : string) : result pyval :=
  match v with
  | PDict d => Ok (match assoc_get k d with Some x => x | None => PNone end)
  | _ => Raise (AttributeError "get")
  end.

(** [v.items()]: only a dict has the method. *)
Definition py_items (v : pyval) : result pydict :=
  match v with
  | PDict d => Ok d
  | _ => Raise (AttributeError "items")
  end.

(** [v[k]] with a string key on a dict. *)
Definition py_getitem (v : pyval) (k : string) : result pyval :=
  match v with
  | PDict d => match assoc_get k d with Some x => Ok x | None => Raise (KeyError k) end
  | _ => Raise (Raised "TypeError" "not subscriptable by str")
  end.

(** The calls that leave the process, in the order they are made. *)
Inductive event : Type :=
| EvAgent (input : string)
| EvHttpGet (url : string) (params : pydict) (timeout : Z)
| EvModel (prompt : string).

(** A computation appends to the log of calls and returns or raises. *)
Definition M (A : Type) : Type := list event -> result A * list event.

Definition ret {A : Type} (a : A) : M A := fun log => (Ok a, log).

Definition bind {A B : Type} (c : M A) (k : A -> M B) : M B :=
  fun log =>
    match c log with
    | (Ok a, log') => k a log'
    | (Raise e, log') => (Raise e, log')
    end.

Definition lift {A : Type} (r : result A) : M A := fun log => (r, log).

Definition call {A : Type} (ev : event) (r : result A) : M A :=
  fun log => (r, log ++ [ev]).

End Py.

Export Py.

Declare Scope py_scope.
Delimit Scope py_scope with py.
Notation "x <- c ;; k" := (bind c (fun x => k))
  (at level 61, c at next level, right associativity) : py_scope.
Open Scope py_scope.

(** ** The collaborators

    One value per object the program reaches outside itself. Each is a
    function of the arguments of the call: within one run of the pipeline
    every collaborator is called at most once, and a test double answers the
    same call the same way. *)

Record response : Type := { json : result pyval }.

Record Summary : Type := { summary : string; facts : list string }.

Record externals : Type := {
  (* os.getenv(name) *)
  getenv : string -> pyval;
  (* requests.get(url, params=params, timeout=timeout) *)
  requests_get : string -> pydict -> Z -> result response;
  (* AgentExecutor(agent, tools, verbose=True).invoke({"input": prompt}),
     together with what lookup builds for it first: the chat model client,
     the ReAct prompt pulled from the hub, the agent *)
  agent_executor_invoke : string -> result pyval;
  (* str(value), as str.format renders a template variable *)
  py_str : pyval -> string;
  (* summary_output_parser.get_format_instructions() *)
  format_instructions : string;
  (* ChatOpenAI(model="gpt-4o-mini", temperature=0), built after the profile
     is fetched, and its answer to the prompt, as text *)
  llm_invoke : string -> result string;
  (* summary_output_parser.parse(text) *)
  parser_parse : string -> result Summary
}.

(** ** linkedin.py *)

Module Linkedin.

Definition MOCK_URL : string :=
  "https://gist.githubusercontent.com/YFolla/ff1954753eb6354728a292e77ee10795/raw/b177fcc64b7308b8b3a81eddbbb09bf647ed19c6/yfolla_linkedin.json".

Definition api_endpoint : string := "https://api.scrapin.io/enrichment/profile".

(** [v not in ([], "", None) and k not in ["certifications"]] *)
Definition keep (kv : string * pyval) : bool :=
  let (k, v) := kv in
  negb (py_in v [PList []; PStr ""; PNone]) && negb (str_in k ["certifications"]).

(** The dict comprehension over [data.items()]: the kept items, in order. *)
Definition clean (items : pydict) : pydict := filter keep items.

Section Scrape.

Variable E : externals.

Definition http_get (url : string) (params : pydict) (timeout : Z) : M response :=
  call (EvHttpGet url params timeout) (requests_get E url params timeout).

Definition scrape_linkedin_profile (linkedin_profile_url : pyval) (mock : bool) : M pydict :=
  response <-
    (if mock then
       let linkedin_profile_url := MOCK_URL in
       http_get linkedin_profile_url [] 10
     else
       let params := [("apikey", getenv E "SCRAPIN_API_KEY");
                      ("linkedInUrl", linkedin_profile_url)] in
       http_get api_endpoint params 10) ;;
  body <- lift (json response) ;;
  data <- lift (py_get body "person") ;;
  items <- lift (py_items data) ;;
  ret (clean items).

End Scrape.

(** The one GET request a call makes: URL, query parameters, timeout. *)
Definition profile_request (E : externals) (url : pyval) (mock : bool) : string * pydict * Z :=
  if mock then (MOCK_URL, [], 10%Z)
  else (api_endpoint,
        [("apikey", getenv E "SCRAPIN_API_KEY"); ("linkedInUrl", url)], 10%Z).

Definition request_event (E : externals) (url : pyval) (mock : bool) : event :=
  let '(u, params, timeout) := profile_request E url mock in EvHttpGet u params timeout.

(** What the request is answered with. *)
Definition fetched (E : externals) (url : pyval) (mock : bool) : result response :=
  let '(u, params, timeout) := profile_request E url mock in requests_get E u params timeout.

(** What the statements after the request compute from the response. *)
Definition person_of (r : result response) : result pydict :=
  match r with
  | Raise e => Raise e
  | Ok resp =>
      match json resp with
      | Raise e => Raise e
      | Ok body =>
          match py_get body "person" with
          | Raise e => Raise e
          | Ok data =>
              match py_items data with
              | Raise e => Raise e
              | Ok items => Ok (clean items)
              end
          end
      end
  end.

End Linkedin.

(** ** agents/linkedin_lookup_agent.py *)

Module LinkedinLookupAgent.

Definition nl : string := String "010"%char EmptyString.

(** [template.format(name_of_person=name)] *)
Definition format_template (name_of_person : string) : string :=
  nl ++ "        given the full name " ++ name_of_person
     ++ ", I want you to get back the LinkedIn profile URL. Your answer should ONLY contain a URL."
     ++ nl ++ "        If you cannot find it, return an empty string."
     ++ nl ++ "    ".

Section Lookup.

Variable E : externals.

(** The executor is built with the library's defaults (no step budget is
    passed); [lookup] hands back the ["output"] entry of what it returns. *)
Definition lookup (name : string) : M pyval :=
  let input := format_template name in
  result <- call (EvAgent input) (agent_executor_invoke E input) ;;
  linkedin_profile_url <- lift (py_getitem result "output") ;;
  ret linkedin_profile_url.

End Lookup.

(** What [lookup] hands back from the executor's answer. *)
Definition output_of (r : result pyval) : result pyval :=
  match r with
  | Ok result => py_getitem result "output"
  | Raise e => Raise e
  end.

End LinkedinLookupAgent.

(** ** output_parsers.py *)

Module OutputParsers.

(** [Summary.to_dict] *)
Definition to_dict (self : Summary) : pydict :=
  [("summary", PStr (summary self)); ("facts", PList (map PStr (facts self)))].

End OutputParsers.

(** ** ice_breaker.py *)

Module IceBreaker.

Import LinkedinLookupAgent.

(** [summary_template] with its two variables filled in. *)
Definition format_summary_template (information format_instructions : string) : string :=
  nl ++ "          given the LinkedIn information " ++ information
     ++ " about a person, I want you to create a short summary of 2-3 sentences that includes two interesting facts about them."
     ++ nl ++ "          " ++ nl ++ format_instructions ++ nl ++ "    ".

(** [d.get(k)] on a dict. *)
Definition dict_get (d : pydict) (k : string) : pyval :=
  match assoc_get k d with
  | Some v => v
  | None => PNone
  end.

Section Pipeline.

Variable E : externals.

(** [(summary_prompt_template | llm | summary_output_parser).invoke(...)] *)
Definition chain_invoke (information : pydict) : M Summary :=
  let prompt :=
    format_summary_template (py_str E (PDict information)) (format_instructions E) in
  message <- call (EvModel prompt) (llm_invoke E prompt) ;;
  lift (parser_parse E message).

Definition ice_break_with (name : string) : M (Summary * pyval) :=
  linkedin_username <- lookup E name ;;
  linkedin_data <- Linkedin.scrape_linkedin_profile E linkedin_username false ;;
  result <- chain_invoke linkedin_data ;;
  ret (result, dict_get linkedin_data "photoUrl").

End Pipeline.

(** The prompt the chain sends for a profile document. *)
Definition summary_prompt (E : externals) (information : pydict) : string :=
  format_summary_template (py_str E (PDict information)) (format_instructions E).

(** What the parser makes of the model's answer. *)
Definition parsed (E : externals) (r : result string) : result Summary :=
  match r with
  | Ok message => parser_parse E message
  | Raise e => Raise e
  end.

End IceBreaker.

(** ** The specification's failure taxonomy

    Modelled from the spec: the conditions of section 7. The repository
    declares no exception class of its own. *)

Inductive condition : Type :=
| ResolutionIncomplete
| ActionParseError
| UnknownToolError (toolName : string)
| ProfileNotFound
| DataSourceError
| SchemaValidationError (raw_response : string).

Inductive outcome (A : Type) : Type :=
| Done (a : A)
| Failed (c : condition).

Arguments Done {A} a.
Arguments Failed {A} c.

(** ** Text helpers shared by the two modelled stages *)

Module Text.

Definition is_space (c : ascii) : bool :=
  (c =? " ")%char || (c =? "009")%char || (c =? "010")%char || (c =? "013")%char.

Fixpoint lstrip (s : string) : string :=
  match s with
  | String c s' => if is_space c then lstrip s' else s
  | EmptyString => s
  end.

(** Drops trailing white space: a character stays when something that is
    not white space follows it or it is not white space itself. *)
Fixpoint rstrip (s : string) : string :=
  match s with
  | EmptyString => EmptyString
  | String c s' =>
      match rstrip s' with
      | EmptyString => if is_space c then EmptyString else String c EmptyString
      | t => String c t
      end
  end.

Definition trim (s : string) : string := rstrip (lstrip s).

(** [strip_prefix p s = Some r] when [s = p ++ r]. *)
Fixpoint strip_prefix (p s : string) : option string :=
  match p, s with
  | EmptyString, _ => Some s
  | String a p', String b s' => if (a =? b)%char then strip_prefix p' s' else None
  | String _ _, EmptyString => None
  end.

(** Splits at the first occurrence of [sep]: what is before, what is after. *)
Fixpoint split_on (sep s : string) : option (string * string) :=
  match strip_prefix sep s with
  | Some after => Some (EmptyString, after)
  | None =>
      match s with
      | EmptyString => None
      | String c s' =>
          match split_on sep s' with
          | Some (before, after) => Some (String c before, after)
          | None => None
          end
      end
  end.

End Text.

(** ** The reasoning-acting loop (specification, sections 3 and 4.1)

    In the repository the loop runs inside the library's [AgentExecutor];
    [lookup] only builds it and reads its output. *)

Module Resolver.

Import Text.

(** Modelled from the spec: [ActionInvocation] and [ActionStep] of section
    3, which live inside the agent library. *)
Record ActionInvocation : Type := { toolName : string; toolInput : string }.

Record ActionStep : Type := {
  thought : string;
  action : option ActionInvocation;
  observation : option string;
  isFinal : bool;
  finalAnswer : option string
}.

Definition nl : string := LinkedinLookupAgent.nl.

(** Modelled from the spec: the step parser of section 4.1 (2b), whose code
    is the agent library's. A step is [Thought: t], a line break, and then
    either [Final Answer: v] or [Action: tool], a line break and
    [Action Input: input]; any other text is a parse failure. *)
Definition parse_step (raw : string) : option ActionStep :=
  match strip_prefix "Thought:" raw with
  | None => None
  | Some rest =>
      match split_on (nl ++ "Final Answer:") rest with
      | Some (t, v) =>
          Some {| thought := trim t; action := None; observation := None;
                  isFinal := true; finalAnswer := Some (trim v) |}
      | None =>
          match split_on (nl ++ "Action:") rest with
          | None => None
          | Some (t, call) =>
              match split_on (nl ++ "Action Input:") call with
              | None => None
              | Some (tool, input) =>
                  Some {| thought := trim t;
                          action := Some {| toolName := trim tool; toolInput := trim input |};
                          observation := None; isFinal := false; finalAnswer := None |}
              end
          end
      end
  end.

(** What one resolution did: how it ended, the steps it produced (the
    execution trace) and how many times the model was asked. *)
Record run : Type := {
  ended : outcome string;
  trace : list ActionStep;
  model_calls : nat
}.

Definition with_observation (step : ActionStep) (obs : string) : ActionStep :=
  {| thought := thought step; action := action step; observation := Some obs;
     isFinal := isFinal step; finalAnswer := finalAnswer step |}.

Section Loop.

(** The language model: the instruction and the steps so far to raw text. *)
Variable model : string -> list ActionStep -> string.
(** The registered tools, by name. *)
Variable tools : list (string * (string -> string)).

(** Modelled from the spec: the loop of section 4.1 (2a-2d and 3), whose
    code is the agent library's. [budget] is the maximum step count;
    [transcript] holds the steps so far and [calls] the model calls made. *)
Fixpoint loop (budget : nat) (instruction : string)
    (transcript : list ActionStep) (calls : nat) : run :=
  match budget with
  | O => {| ended := Failed ResolutionIncomplete; trace := transcript; model_calls := calls |}
  | S budget' =>
      let raw := model instruction transcript in
      match parse_step raw with
      | None => {| ended := Failed ActionParseError; trace := transcript; model_calls := S calls |}
      | Some step =>
          if isFinal step then
            {| ended := Done (match finalAnswer step with Some v => trim v | None => EmptyString end);
               trace := transcript ++ [step]; model_calls := S calls |}
          else
            match action step with
            | None => {| ended := Failed ActionParseError; trace := transcript; model_calls := S calls |}
            | Some inv =>
                match assoc_get (toolName inv) tools with
                | None =>
                    {| ended := Failed (UnknownToolError (toolName inv));
                       trace := transcript ++ [step]; model_calls := S calls |}
                | Some tool =>
                    let obs := tool (toolInput inv) in
                    loop budget' instruction (transcript ++ [with_observation step obs]) (S calls)
                end
            end
      end
  end.

(** Modelled from the spec: [resolve] of section 4.1, step 1 and the loop. *)
Definition resolve (budget : nat) (subjectName : string) : run :=
  loop budget (LinkedinLookupAgent.format_template subjectName) [] 0.

End Loop.



(** A model that never answers: whatever the transcript, it asks for one
    more search. *)
Definition always_search (instruction : string) (transcript : list ActionStep) : string :=
  "Thought: I should search again" ++ nl ++ "Action: search" ++ nl
    ++ "Action Input: LinkedIn profile".

(** A model that searches once and then answers with a URL. *)
Definition search_then_answer (instruction : string) (transcript : list ActionStep) : string :=
  match transcript with
  | [] => always_search instruction transcript
  | _ :: _ =>
      "Thought: I have found it" ++ nl ++ "Final Answer: https://www.linkedin.com/in/x/ "
  end.

(** The one registered tool, here answering every query with no result. *)
Definition search_stub : list (string * (string -> string)) :=
  [("search", fun _ => EmptyString)].






End Resolver.

(** ** JSON text (RFC 8259), as the extraction stage reads it

    Modelled from the spec: section 4.3 has the extractor parse a JSON
    object; in the repository the reading is [json.loads], called by the
    parser library. *)

Module Json.

Import Text.

(** A JSON document. A number keeps its literal; an object keeps its members
    in the order of the text. *)
Inductive json : Type :=
| JNull
| JBool (b : bool)
| JNumber (literal : string)
| JString (s : string)
| JArray (items : list json)
| JObject (members : list (string * json)).

Definition quote : ascii := "034"%char.
Definition backslash : ascii := "092"%char.

Definition is_digit (c : ascii) : bool :=
  let n := N_of_ascii c in (48 <=? n)%N && (n <=? 57)%N.

Definition hex_val (c : ascii) : option N :=
  let n := N_of_ascii c in
  if (48 <=? n)%N && (n <=? 57)%N then Some (n - 48)%N
  else if (65 <=? n)%N && (n <=? 70)%N then Some (n - 55)%N
  else if (97 <=? n)%N && (n <=? 102)%N then Some (n - 87)%N
  else None.

Definition hex4 (a b c d : ascii) : option N :=
  match hex_val a, hex_val b, hex_val c, hex_val d with
  | Some x, Some y, Some z, Some w => Some (((x * 16 + y) * 16 + z) * 16 + w)%N
  | _, _, _, _ => None
  end.

Definition byte (n : N) : string := String (ascii_of_N n) EmptyString.

(** The UTF-8 bytes of a code point. *)
Definition utf8_encode (cp : N) : string :=
  if (cp <? 128)%N then byte cp
  else if (cp <? 2048)%N then
    byte (192 + cp / 64) ++ byte (128 + cp mod 64)
  else if (cp <? 65536)%N then
    byte (224 + cp / 4096) ++ byte (128 + (cp / 64) mod 64) ++ byte (128 + cp mod 64)
  else
    byte (240 + cp / 262144) ++ byte (128 + (cp / 4096) mod 64)
      ++ byte (128 + (cp / 64) mod 64) ++ byte (128 + cp mod 64).

Definition is_high_surrogate (cp : N) : bool := (55296 <=? cp)%N && (cp <=? 56319)%N.
Definition is_low_surrogate (cp : N) : bool := (56320 <=? cp)%N && (cp <=? 57343)%N.

(** The character a one-letter escape stands for. *)
Definition unescape (e : ascii) : option ascii :=
  if (e =? quote)%char then Some quote
  else if (e =? backslash)%char then Some backslash
  else if (e =? "/")%char then Some "/"%char
  else if (e =? "b")%char then Some "008"%char
  else if (e =? "f")%char then Some "012"%char
  else if (e =? "n")%char then Some "010"%char
  else if (e =? "r")%char then Some "013"%char
  else if (e =? "t")%char then Some "009"%char
  else None.

Definition prepend (p : string) (r : option (string * string)) : option (string * string) :=
  match r with
  | Some (s, rest) => Some ((p ++ s)%string, rest)
  | None => None
  end.

(** The characters of a string literal, from just after its opening quote:
    the decoded string and the text after the closing quote. *)
Fixpoint parse_chars (s : string) : option (string * string) :=
  match s with
  | EmptyString => None
  | String c s' =>
      if (c =? quote)%char then Some (EmptyString, s')
      else if (c =? backslash)%char then
        match s' with
        | EmptyString => None
        | String e s'' =>
            if (e =? "u")%char then
              match s'' with
              | String h1 (String h2 (String h3 (String h4 s3))) =>
                  match hex4 h1 h2 h3 h4 with
                  | None => None
                  | Some hi =>
                      if is_low_surrogate hi then None
                      else if is_high_surrogate hi then
                        match s3 with
                        | String b (String u (String l1 (String l2 (String l3 (String l4 s4))))) =>
                            if (b =? backslash)%char && (u =? "u")%char then
                              match hex4 l1 l2 l3 l4 with
                              | Some lo =>
                                  if is_low_surrogate lo then
                                    prepend
                                      (utf8_encode (65536 + (hi - 55296) * 1024 + (lo - 56320))%N)
                                      (parse_chars s4)
                                  else None
                              | None => None
                              end
                            else None
                        | _ => None
                        end
                      else prepend (utf8_encode hi) (parse_chars s3)
                  end
              | _ => None
              end
            else
              match unescape e with
              | Some c' => prepend (String c' EmptyString) (parse_chars s'')
              | None => None
              end
        end
      else if (N_of_ascii c <? 32)%N then None
      else prepend (String c EmptyString) (parse_chars s')
  end.

Fixpoint take_digits (s : string) : string * string :=
  match s with
  | EmptyString => (EmptyString, EmptyString)
  | String c s' =>
      if is_digit c then let (d, r) := take_digits s' in (String c d, r)
      else (EmptyString, s)
  end.

(** A number literal: sign, integer part without a leading zero, optional
    fraction, optional exponent. Returns the literal and the text after it. *)
Definition parse_number (s : string) : option (string * string) :=
  let (sign, s1) :=
    match s with
    | String "-"%char s' => ("-", s')
    | _ => (EmptyString, s)
    end in
  let (int, s2) := take_digits s1 in
  match int with
  | EmptyString => None
  | String "0"%char (String _ _) => None
  | _ =>
      let frac :=
        match s2 with
        | String "."%char s' =>
            let (d, r) := take_digits s' in
            match d with
            | EmptyString => None
            | _ => Some (("." ++ d)%string, r)
            end
        | _ => Some (EmptyString, s2)
        end in
      match frac with
      | None => None
      | Some (f, s3) =>
          let exp :=
            match s3 with
            | String e s' =>
                if (e =? "e")%char || (e =? "E")%char then
                  let (sg, s'') :=
                    match s' with
                    | String "+"%char t => ("+", t)
                    | String "-"%char t => ("-", t)
                    | _ => (EmptyString, s')
                    end in
                  let (d, r) := take_digits s'' in
                  match d with
                  | EmptyString => None
                  | _ => Some ((String e sg ++ d)%string, r)
                  end
                else Some (EmptyString, s3)
            | EmptyString => Some (EmptyString, s3)
            end in
          match exp with
          | None => None
          | Some (x, s4) => Some ((sign ++ int ++ f ++ x)%string, s4)
          end
      end
  end.

Definition tag {A : Type} (f : A -> json) (r : option (A * string)) : option (json * string) :=
  match r with
  | Some (a, rest) => Some (f a, rest)
  | None => None
  end.

(** Recursive descent, one unit of [fuel] per call. [parse_elements] and
    [parse_members] start after the opening bracket, at a first element. *)
Fixpoint parse_value (fuel : nat) (s : string) : option (json * string) :=
  match fuel with
  | O => None
  | S n =>
      match lstrip s with
      | EmptyString => None
      | String c rest =>
          if (c =? "{")%char then
            match lstrip rest with
            | String "}"%char rest' => Some (JObject [], rest')
            | _ => tag JObject (parse_members n rest)
            end
          else if (c =? "[")%char then
            match lstrip rest with
            | String "]"%char rest' => Some (JArray [], rest')
            | _ => tag JArray (parse_elements n rest)
            end
          else if (c =? quote)%char then tag JString (parse_chars rest)
          else if (c =? "t")%char then
            tag (fun _ => JBool true) (option_map (pair tt) (strip_prefix "rue" rest))
          else if (c =? "f")%char then
            tag (fun _ => JBool false) (option_map (pair tt) (strip_prefix "alse" rest))
          else if (c =? "n")%char then
            tag (fun _ => JNull) (option_map (pair tt) (strip_prefix "ull" rest))
          else tag JNumber (parse_number (String c rest))
      end
  end
with parse_elements (fuel : nat) (s : string) : option (list json * string) :=
  match fuel with
  | O => None
  | S n =>
      match parse_value n s with
      | None => None
      | Some (v, r) =>
          match lstrip r with
          | String ","%char r' =>
              match parse_elements n r' with
              | Some (vs, r'') => Some (v :: vs, r'')
              | None => None
              end
          | String "]"%char r' => Some ([v], r')
          | _ => None
          end
      end
  end
with parse_members (fuel : nat) (s : string) : option (list (string * json) * string) :=
  match fuel with
  | O => None
  | S n =>
      match lstrip s with
      | String q s1 =>
          if (q =? quote)%char then
            match parse_chars s1 with
            | None => None
            | Some (k, s2) =>
                match lstrip s2 with
                | String ":"%char s3 =>
                    match parse_value n s3 with
                    | None => None
                    | Some (v, r) =>
                        match lstrip r with
                        | String ","%char r' =>
                            match parse_members n r' with
                            | Some (ms, r'') => Some ((k, v) :: ms, r'')
                            | None => None
                            end
                        | String "}"%char r' => Some ([(k, v)], r')
                        | _ => None
                        end
                    end
                | _ => None
                end
            end
          else None
      | EmptyString => None
      end
  end.

(** A whole text as one JSON value: nothing but white space may follow it.
    The fuel allows two calls per character. *)
Definition loads (s : string) : option json :=
  match parse_value (2 * String.length s + 2) s with
  | Some (v, rest) =>
      match lstrip rest with
      | EmptyString => Some v
      | _ => None
      end
  | None => None
  end.

(** Writes ['] for the double quote, to keep test texts readable. *)
Fixpoint dq (s : string) : string :=
  match s with
  | EmptyString => EmptyString
  | String c s' => String (if (c =? "'")%char then quote else c) (dq s')
  end.

End Json.

(** ** The schema-validated extractor (specification, section 4.3)

    In the repository this stage is the library's [PydanticOutputParser]
    built over [Summary]; [output_parsers.py] declares the schema only. *)

Module Extractor.

Import Text Json.

Fixpoint from_first_open (s : string) : option string :=
  match s with
  | EmptyString => None
  | String c s' => if (c =? "{")%char then Some s else from_first_open s'
  end.

Fixpoint upto_last_close (s : string) : option string :=
  match s with
  | EmptyString => None
  | String c s' =>
      match upto_last_close s' with
      | Some p => Some (String c p)
      | None => if (c =? "}")%char then Some (String c EmptyString) else None
      end
  end.

(** Modelled from the spec: locating the JSON payload in the response, a
    step of the parser library. The payload is the outermost brace region,
    from the first opening brace to the last closing one; whether it is
    balanced is settled by parsing it. *)
Definition locate (raw : string) : option string :=
  match from_first_open raw with
  | Some s => upto_last_close s
  | None => None
  end.

Fixpoint all_strings (items : list json) : option (list string) :=
  match items with
  | [] => Some []
  | JString s :: rest =>
      match all_strings rest with
      | Some ss => Some (s :: ss)
      | None => None
      end
  | _ :: _ => None
  end.

(** Modelled from the spec: validation against the schema
    [{summary: string, facts: sequence of string}], done in the repository
    by the validation library. Both keys are required, [summary] must be a
    string and [facts] an array of strings; other keys are ignored. *)
Definition validate (members : list (string * json)) : option Summary :=
  match assoc_get "summary" members, assoc_get "facts" members with
  | Some (JString s), Some (JArray items) =>
      match all_strings items with
      | Some fs => Some {| summary := s; facts := fs |}
      | None => None
      end
  | _, _ => None
  end.

(** Modelled from the spec: response parsing and validation of section 4.3,
    whose code is the parser library's. Locate the payload, parse it,
    validate it; every failure carries the raw response. *)
Definition parse (raw : string) : outcome Summary :=
  match locate raw with
  | None => Failed (SchemaValidationError raw)
  | Some payload =>
      match loads payload with
      | Some (JObject members) =>
          match validate members with
          | Some r => Done r
          | None => Failed (SchemaValidationError raw)
          end
      | _ => Failed (SchemaValidationError raw)
      end
  end.

(** The response holds an object that conforms to the schema, with these
    field values. *)
Definition conforms (raw : string) (s : string) (fs : list string) : Prop :=
  exists payload members,
    locate raw = Some payload
    /\ loads payload = Some (JObject members)
    /\ assoc_get "summary" members = Some (JString s)
    /\ assoc_get "facts" members = Some (JArray (map JString fs)).


End Extractor.

(** ** tools/tools.py *)

Module Tools.

Section Search.

(** [TavilySearchResults(max_results=n).run(query)] *)
Variable search_run : nat -> string -> result pyval.

Definition get_profile_url_tavily (name : string) : result pyval :=
  let result := search_run 1 (name ++ " LinkedIn profile") in
  result.

End Search.

(** A search backend that answers with the query it was given. *)
Definition echo (max_results : nat) (query : string) : result pyval := Ok (PStr query).

End Tools.

(** ** app.py *)

Module App.

Definition placeholder : string := "https://via.placeholder.com/300x300?text=No+Image".

(** [bool(v)]: [None], [False], zero, and the empty string, list and dict
    are false; everything else is true. *)
Definition py_truthy (v : pyval) : bool :=
  match v with
  | PNone => false
  | PBool b => b
  | PInt z => negb (z =? 0)%Z
  | PFloat (FFinite m _) => negb (m =? 0)%Z
  | PFloat _ => true
  | PStr s => negb (String.eqb s EmptyString)
  | PList l => match l with [] => false | _ :: _ => true end
  | PDict d => match d with [] => false | _ :: _ => true end
  end.

(** [a or b] *)
Definition py_or (a b : pyval) : pyval := if py_truthy a then a else b.

(** [request.form.get("name")] is the field's first value, or [None] when
    the form has no such field; the name is used in one place only, the
    prompt template, where [str.format] renders [None] as the text None. *)
Definition form_name (form : list (string * string)) : string :=
  match assoc_get "name" form with
  | Some name => name
  | None => "None"
  end.

Section Process.

Variable E : externals.

(** [process], from the submitted form to the dict handed to [jsonify]. *)
Definition process (form : list (string * string)) : M pydict :=
  let name := form_name form in
  r <- IceBreaker.ice_break_with E name ;;
  let (summary, photo_url) := r in
  ret [("summary_and_facts", PDict (OutputParsers.to_dict summary));
       ("picture_url", py_or photo_url (PStr placeholder));
       ("ice_breakers", PDict [("ice_breakers", PList [PStr "Coming soon..."])]);
       ("interests", PDict [("topics_of_interest", PList [PStr "Coming soon..."])])].

End Process.

End App.

(** ** Test doubles *)

Module Doubles.

(** Collaborators that always answer: the agent with [agent_output], the
    profile API with the JSON [body], the model with a fixed text that the
    parser wraps into a [Summary]. *)
Definition double (agent_output body : pyval) : externals :=
  {| getenv := fun _ => PStr "key";
     requests_get := fun _ _ _ => Ok {| json := Ok body |};
     agent_executor_invoke :=
       fun input => Ok (PDict [("input", PStr input); ("output", agent_output)]);
     py_str := fun _ => "<profile>";
     format_instructions := "<schema>";
     llm_invoke := fun _ => Ok "<response>";
     parser_parse := fun text => Ok {| summary := text; facts := [] |} |}.

(** The document of the specification's filtering example. *)
Definition example_person : pydict :=
  [("name", PStr "X"); ("certifications", PList [PStr "c1"]);
   ("bio", PStr ""); ("skills", PList [PStr "s1"])].

Definition with_person (person : pydict) : pyval := PDict [("person", PDict person)].

(** The agent found nothing and answers with the empty string. *)
Definition nobody : externals := double (PStr "") (with_person [("fullName", PStr "X")]).

(** The agent found a profile that has a picture. *)
Definition somebody : externals :=
  double (PStr "https://www.linkedin.com/in/x/")
         (with_person [("fullName", PStr "X"); ("photoUrl", PStr "https://img/x.png")]).

End Doubles.

(** * Properties *)

(** ** The definitions at work *)

Section Samples.

Import Json Extractor.

Example true_equals_one : py_eq (PBool true) (PInt 1) = true.
Proof. reflexivity. Qed.

Example one_equals_one_point_zero : py_eq (PInt 1) (PFloat (FFinite 2 (-1))) = true.
Proof. reflexivity. Qed.

Example dicts_compare_whatever_the_order :
  py_eq (PDict [("a", PInt 1); ("b", PList [PNone])])
        (PDict [("b", PList [PNone]); ("a", PBool true)]) = true.
Proof. reflexivity. Qed.

Example zero_is_not_among_the_empties :
  py_in (PInt 0) [PList []; PStr ""; PNone] = false
  /\ py_in (PBool false) [PList []; PStr ""; PNone] = false
  /\ py_in (PDict []) [PList []; PStr ""; PNone] = false
  /\ py_in (PList []) [PList []; PStr ""; PNone] = true.
Proof. repeat split. Qed.

Example loads_nested :
  loads (dq " { 'a' : [1, -2.5e+3, true, null, {'b': {}}, []] } ")
  = Some (JObject [("a", JArray [JNumber "1"; JNumber "-2.5e+3"; JBool true; JNull;
                                 JObject [("b", JObject [])]; JArray []])]).
Proof. vm_compute. reflexivity. Qed.

Example loads_refuses_near_misses :
  loads (dq "{'a': 1,}") = None
  /\ loads (dq "{'a': 01}") = None
  /\ loads (dq "[1 2]") = None
  /\ loads (dq "{'a': 1} x") = None.
Proof. vm_compute. repeat split. Qed.

Example parse_refuses_missing_key :
  parse (dq "Sure: {'summary': 'A'}") = Failed (SchemaValidationError (dq "Sure: {'summary': 'A'}")).
Proof. vm_compute. reflexivity. Qed.

Example parse_refuses_wrong_type :
  parse (dq "{'summary': 'A', 'facts': ['a', 1]}")
  = Failed (SchemaValidationError (dq "{'summary': 'A', 'facts': ['a', 1]}")).
Proof. vm_compute. reflexivity. Qed.

Example resolver_search_then_answer :
  Resolver.ended (Resolver.resolve Resolver.search_then_answer Resolver.search_stub 5 "A B")
  = Done "https://www.linkedin.com/in/x/"
  /\ Resolver.model_calls
       (Resolver.resolve Resolver.search_then_answer Resolver.search_stub 5 "A B") = 2.
Proof. vm_compute. split; reflexivity. Qed.

End Samples.

(** ** The cleaning filter *)

Section CleaningFilter.

Import Linkedin.

(** [v in ([], "", None)] holds for these three values and no other. *)
Lemma py_in_empties (v : pyval) :
  py_in v [PList []; PStr ""; PNone] = true <-> v = PList [] \/ v = PStr "" \/ v = PNone.
Proof.
  unfold py_in; split.
  - destruct v as [ | b | z | f | s | l | d ]; cbn; try discriminate; auto.
    + destruct s; cbn; [auto | discriminate].
    + destruct l; cbn; [auto | discriminate].
  - intros [-> | [-> | ->]]; reflexivity.
Qed.

Lemma py_in_empties_false (v : pyval) :
  py_in v [PList []; PStr ""; PNone] = false <-> v <> PList [] /\ v <> PStr "" /\ v <> PNone.
Proof.
  split.
  - intros H. repeat split; intros ->; discriminate H.
  - intros (H1 & H2 & H3).
    destruct (py_in v [PList []; PStr ""; PNone]) eqn:Hin; [ | reflexivity].
    apply py_in_empties in Hin. destruct Hin as [-> | [-> | ->]]; congruence.
Qed.

Lemma str_in_certifications (k : string) :
  str_in k ["certifications"] = false <-> k <> "certifications".
Proof.
  unfold str_in; cbn. rewrite orb_false_r. apply String.eqb_neq.
Qed.

(** What the filter keeps, spelled out. *)
Lemma keep_spec (k : string) (v : pyval) :
  keep (k, v) = true <->
  (v <> PList [] /\ v <> PStr "" /\ v <> PNone) /\ k <> "certifications".
Proof.
  unfold keep. rewrite andb_true_iff, !negb_true_iff.
  rewrite py_in_empties_false, str_in_certifications. reflexivity.
Qed.

Lemma in_clean (person : pydict) (k : string) (v : pyval) :
  In (k, v) (clean person) <->
  In (k, v) person /\ (v <> PList [] /\ v <> PStr "" /\ v <> PNone) /\ k <> "certifications".
Proof.
  unfold clean. rewrite filter_In, keep_spec. reflexivity.
Qed.

End CleaningFilter.

(** ** linkedin.py: [scrape_linkedin_profile] *)

Section ScrapeFacts.

Import Linkedin Doubles.

(** A call makes exactly one request and then works on its answer alone. *)
Lemma scrape_run (E : externals) (url : pyval) (mock : bool) (log : list event) :
  scrape_linkedin_profile E url mock log =
  (person_of (fetched E url mock), log ++ [request_event E url mock]).
Proof.
  unfold scrape_linkedin_profile, person_of, fetched, request_event, profile_request.
  unfold bind, http_get, call, lift, ret.
  destruct mock; cbn.
  - destruct (requests_get E MOCK_URL [] 10) as [resp | e]; [ | reflexivity].
    destruct (json resp) as [body | e]; [ | reflexivity].
    destruct (py_get body "person") as [data | e]; [ | reflexivity].
    destruct (py_items data); reflexivity.
  - destruct (requests_get E api_endpoint _ 10) as [resp | e]; [ | reflexivity].
    destruct (json resp) as [body | e]; [ | reflexivity].
    destruct (py_get body "person") as [data | e]; [ | reflexivity].
    destruct (py_items data); reflexivity.
Qed.

(** A response whose body carries a [person] object is cleaned and returned. *)
Lemma scrape_person (E : externals) (url : pyval) (mock : bool) (log : list event)
    (resp : response) (body : pydict) (person : pydict) :
  fetched E url mock = Ok resp ->
  json resp = Ok (PDict body) ->
  assoc_get "person" body = Some (PDict person) ->
  fst (scrape_linkedin_profile E url mock log) = Ok (clean person).
Proof.
  intros Hf Hj Hp. rewrite scrape_run. cbn [fst]. unfold person_of.
  rewrite Hf, Hj. cbn. rewrite Hp. reflexivity.
Qed.

(** C3. Whenever the response carries a [person] object,
    [scrape_linkedin_profile] returns its cleaned document, in which no
    value is [[]], [""] or [None] and no key is ["certifications"]; the
    document of the specification's example is cleaned to name and skills. *)
Theorem cleaned_document_has_no_empty_value :
  (forall (E : externals) (url : pyval) (mock : bool) (log : list event)
          (resp : response) (body person : pydict),
      fetched E url mock = Ok resp ->
      json resp = Ok (PDict body) ->
      assoc_get "person" body = Some (PDict person) ->
      exists doc,
        fst (scrape_linkedin_profile E url mock log) = Ok doc /\
        forall k v, In (k, v) doc ->
          (v <> PList [] /\ v <> PStr "" /\ v <> PNone) /\ k <> "certifications")
  /\ (forall (url : pyval) (mock : bool) (log : list event),
      fst (scrape_linkedin_profile (double url (with_person example_person)) url mock log)
      = Ok [("name", PStr "X"); ("skills", PList [PStr "s1"])]).
Proof.
  split.
  - intros E url mock log resp body person Hf Hj Hp.
    exists (clean person). split.
    + eapply scrape_person; eassumption.
    + intros k v Hin. apply in_clean in Hin. tauto.
  - intros url mock log.
    erewrite scrape_person with (person := example_person).
    + reflexivity.
    + unfold fetched, profile_request. destruct mock; reflexivity.
    + reflexivity.
    + reflexivity.
Qed.

Lemma cleaned_document_has_no_empty_value_witness :
  exists doc,
    fst (scrape_linkedin_profile
           (double (PStr "u") (with_person [("bio", PNone); ("name", PStr "X")]))
           (PStr "u") false []) = Ok doc /\
    forall k v, In (k, v) doc ->
      (v <> PList [] /\ v <> PStr "" /\ v <> PNone) /\ k <> "certifications".
Proof.
  apply (proj1 cleaned_document_has_no_empty_value
           (double (PStr "u") (with_person [("bio", PNone); ("name", PStr "X")]))
           (PStr "u") false [] {| json := Ok (with_person [("bio", PNone); ("name", PStr "X")]) |}
           [("person", PDict [("bio", PNone); ("name", PStr "X")])]
           [("bio", PNone); ("name", PStr "X")]); reflexivity.
Defined.

(** C6, as the code has it. When the body is an object without a [person]
    key, [.get("person")] gives [None] and [data.items()] raises
    [AttributeError]: that is the failure the caller sees. *)
Theorem missing_person_raises_attribute_error
    (E : externals) (url : pyval) (mock : bool) (log : list event)
    (resp : response) (body : pydict) :
  fetched E url mock = Ok resp ->
  json resp = Ok (PDict body) ->
  assoc_get "person" body = None ->
  scrape_linkedin_profile E url mock log =
  (Raise (AttributeError "items"), log ++ [request_event E url mock]).
Proof.
  intros Hf Hj Hp. rewrite scrape_run. f_equal. unfold person_of.
  rewrite Hf, Hj. cbn. rewrite Hp. reflexivity.
Qed.

Lemma missing_person_raises_attribute_error_witness :
  scrape_linkedin_profile (double (PStr "u") (PDict [("success", PBool false)])) (PStr "u") false [] =
  (Raise (AttributeError "items"),
   [] ++ [request_event (double (PStr "u") (PDict [("success", PBool false)])) (PStr "u") false]).
Proof.
  apply (missing_person_raises_attribute_error
           (double (PStr "u") (PDict [("success", PBool false)])) (PStr "u") false []
           {| json := Ok (PDict [("success", PBool false)]) |} [("success", PBool false)]);
    reflexivity.
Defined.

(** C6, as stated, fails: on the body [{}] the call raises
    [AttributeError], which is not a [DataSourceError]. *)
Lemma missing_person_is_not_a_data_source_error :
  fst (scrape_linkedin_profile (double (PStr "u") (PDict [])) (PStr "u") false [])
  = Raise (AttributeError "items")
  /\ exn_name (AttributeError "items") <> "DataSourceError".
Proof.
  split; [reflexivity | discriminate].
Qed.

(** C9. In mock mode the URL passed in plays no part: two runs that get
    the same fixture response end the same way whatever URL each was given
    (and whatever else differs around them), and the one request each makes
    goes to the fixed fixture URL, with no parameters. *)
Theorem mock_ignores_profile_url
    (E1 E2 : externals) (url1 url2 : pyval) (log : list event) :
  requests_get E1 MOCK_URL [] 10 = requests_get E2 MOCK_URL [] 10 ->
  scrape_linkedin_profile E1 url1 true log = scrape_linkedin_profile E2 url2 true log
  /\ snd (scrape_linkedin_profile E1 url1 true log) = log ++ [EvHttpGet MOCK_URL [] 10].
Proof.
  intros Hfixture. rewrite !scrape_run.
  unfold fetched, request_event, profile_request. rewrite Hfixture.
  split; reflexivity.
Qed.

Lemma mock_ignores_profile_url_witness :
  scrape_linkedin_profile nobody (PStr "https://www.linkedin.com/in/a/") true []
  = scrape_linkedin_profile
      (double (PStr "b") (with_person [("fullName", PStr "X")]))
      (PStr "https://www.linkedin.com/in/b/") true []
  /\ snd (scrape_linkedin_profile nobody (PStr "https://www.linkedin.com/in/a/") true [])
     = [] ++ [EvHttpGet MOCK_URL [] 10].
Proof.
  apply (mock_ignores_profile_url nobody
           (double (PStr "b") (with_person [("fullName", PStr "X")]))
           (PStr "https://www.linkedin.com/in/a/") (PStr "https://www.linkedin.com/in/b/") []).
  reflexivity.
Defined.

(** C10, as the code has it. Under any key but ["certifications"] an item
    is dropped exactly when its value compares equal to [[]], [""] or
    [None]; so [{}], [0], [0.0] and [False] stay. *)
Theorem clean_drops_exactly_the_three_empties
    (person : pydict) (k : string) (v : pyval) :
  k <> "certifications" ->
  In (k, v) person ->
  (In (k, v) (clean person) <->
   py_eq v (PList []) = false /\ py_eq v (PStr "") = false /\ py_eq v PNone = false)
  /\ (v = PDict [] \/ v = PInt 0 \/ v = PFloat (FFinite 0 0) \/ v = PBool false ->
      In (k, v) (clean person)).
Proof.
  intros Hk Hin.
  assert (Hempties :
    py_in v [PList []; PStr ""; PNone] = false <->
    py_eq v (PList []) = false /\ py_eq v (PStr "") = false /\ py_eq v PNone = false).
  { unfold py_in. cbn [existsb]. rewrite orb_false_r, !orb_false_iff. reflexivity. }
  split.
  - rewrite in_clean, <- Hempties, py_in_empties_false. tauto.
  - intros Hv. apply in_clean. split; [exact Hin | split; [ | exact Hk]].
    destruct Hv as [-> | [-> | [-> | ->]]]; repeat split; discriminate.
Qed.

Lemma clean_drops_exactly_the_three_empties_witness :
  (In ("languages", PDict []) (clean [("languages", PDict []); ("bio", PStr "")]) <->
   py_eq (PDict []) (PList []) = false /\ py_eq (PDict []) (PStr "") = false
   /\ py_eq (PDict []) PNone = false)
  /\ (PDict [] = PDict [] \/ PDict [] = PInt 0 \/ PDict [] = PFloat (FFinite 0 0)
      \/ PDict [] = PBool false ->
      In ("languages", PDict []) (clean [("languages", PDict []); ("bio", PStr "")])).
Proof.
  apply (clean_drops_exactly_the_three_empties
           [("languages", PDict []); ("bio", PStr "")] "languages" (PDict [])).
  - discriminate.
  - left; reflexivity.
Defined.

(** C10, as stated, fails under the key ["certifications"]: its item goes
    even when the value is [{}], which equals none of the three. *)
Lemma certifications_dropped_whatever_the_value :
  clean [("certifications", PDict []); ("name", PStr "X")] = [("name", PStr "X")]
  /\ py_in (PDict []) [PList []; PStr ""; PNone] = false.
Proof.
  split; reflexivity.
Qed.

End ScrapeFacts.

(** ** ice_breaker.py: [ice_break_with] *)

Section PipelineFacts.

Import Linkedin LinkedinLookupAgent IceBreaker Doubles.

Lemma lookup_run (E : externals) (name : string) (log : list event) :
  lookup E name log =
  (output_of (agent_executor_invoke E (format_template name)),
   log ++ [EvAgent (format_template name)]).
Proof.
  unfold lookup, output_of, bind, call, lift, ret.
  destruct (agent_executor_invoke E (format_template name)) as [result | e]; [ | reflexivity].
  destruct (py_getitem result "output"); reflexivity.
Qed.

Lemma chain_run (E : externals) (information : pydict) (log : list event) :
  chain_invoke E information log =
  (parsed E (llm_invoke E (summary_prompt E information)),
   log ++ [EvModel (summary_prompt E information)]).
Proof.
  unfold chain_invoke, parsed, summary_prompt, bind, call, lift.
  destruct (llm_invoke E _); reflexivity.
Qed.

(** The three stages in sequence, each run only when the one before it
    returned; no stage is skipped and no check sits between them. *)
Lemma ice_break_with_run (E : externals) (name : string) (log : list event) :
  ice_break_with E name log =
  match output_of (agent_executor_invoke E (format_template name)) with
  | Raise e => (Raise e, log ++ [EvAgent (format_template name)])
  | Ok u =>
      match person_of (fetched E u false) with
      | Raise e =>
          (Raise e, log ++ [EvAgent (format_template name); request_event E u false])
      | Ok d =>
          (match parsed E (llm_invoke E (summary_prompt E d)) with
           | Ok r => Ok (r, dict_get d "photoUrl")
           | Raise e => Raise e
           end,
           log ++ [EvAgent (format_template name); request_event E u false;
                   EvModel (summary_prompt E d)])
      end
  end.
Proof.
  unfold ice_break_with, bind at 1. rewrite lookup_run.
  destruct (output_of _) as [u | e]; [ | reflexivity].
  unfold bind at 1. rewrite scrape_run.
  destruct (person_of _) as [d | e].
  - unfold bind. rewrite chain_run. rewrite <- !app_assoc. cbn [app].
    destruct (parsed E _); reflexivity.
  - rewrite <- app_assoc. reflexivity.
Qed.

(** C1, as the code has it. Whatever identifier [lookup] returns, the empty
    string included, [ice_break_with] next sends it to the profile API as
    [linkedInUrl]; and when it fails after that, the failure is the one the
    fetch or the chain raised: it raises none of its own. *)
Theorem ice_break_with_fetches_what_lookup_returns
    (E : externals) (name : string) (log log1 : list event) (u : pyval) :
  lookup E name log = (Ok u, log1) ->
  (exists rest,
      snd (ice_break_with E name log) =
      log1 ++ EvHttpGet api_endpoint
                [("apikey", getenv E "SCRAPIN_API_KEY"); ("linkedInUrl", u)] 10 :: rest)
  /\ (forall e,
      fst (ice_break_with E name log) = Raise e ->
      fst (scrape_linkedin_profile E u false log1) = Raise e
      \/ exists d l, fst (scrape_linkedin_profile E u false log1) = Ok d
                     /\ fst (chain_invoke E d l) = Raise e).
Proof.
  rewrite lookup_run. intros Hl. injection Hl as Hu Hlog. subst log1.
  rewrite ice_break_with_run, Hu, scrape_run. cbn [fst].
  destruct (person_of (fetched E u false)) as [d | e'].
  - split.
    + exists [EvModel (summary_prompt E d)]. cbn [snd].
      rewrite <- app_assoc. reflexivity.
    + intros e He. right. exists d, []. split; [reflexivity | ].
      rewrite chain_run. cbn [fst] in *.
      destruct (parsed E _); [discriminate He | congruence].
  - split.
    + exists []. cbn [snd]. rewrite <- app_assoc. reflexivity.
    + intros e He. left. cbn [fst] in He. congruence.
Qed.

Lemma ice_break_with_fetches_what_lookup_returns_witness :
  (exists rest,
      snd (ice_break_with nobody "Nobody" []) =
      [EvAgent (format_template "Nobody")]
        ++ EvHttpGet api_endpoint
             [("apikey", getenv nobody "SCRAPIN_API_KEY"); ("linkedInUrl", PStr "")] 10 :: rest)
  /\ (forall e,
      fst (ice_break_with nobody "Nobody" []) = Raise e ->
      fst (scrape_linkedin_profile nobody (PStr "") false [EvAgent (format_template "Nobody")])
      = Raise e
      \/ exists d l,
           fst (scrape_linkedin_profile nobody (PStr "") false [EvAgent (format_template "Nobody")])
           = Ok d
           /\ fst (chain_invoke nobody d l) = Raise e).
Proof.
  apply (ice_break_with_fetches_what_lookup_returns nobody "Nobody" []
           [EvAgent (format_template "Nobody")] (PStr "")).
  reflexivity.
Defined.

(** C1, as stated, fails: when the agent answers with the empty string the
    run raises nothing, requests the profile of [""] and goes on to the
    model. *)
Lemma empty_identifier_is_fetched :
  fst (lookup nobody "Nobody" []) = Ok (PStr "")
  /\ snd (ice_break_with nobody "Nobody" []) =
     [EvAgent (format_template "Nobody");
      EvHttpGet api_endpoint [("apikey", PStr "key"); ("linkedInUrl", PStr "")] 10;
      EvModel (summary_prompt nobody [("fullName", PStr "X")])]
  /\ fst (ice_break_with nobody "Nobody" []) =
     Ok ({| summary := "<response>"; facts := [] |}, PNone).
Proof.
  repeat split.
Qed.

(** C7. A run that returns went through the three stages, and what it
    returns is the summary the parser produced, paired with the value under
    ["photoUrl"] in the cleaned document, or with [None] when the document
    has no such key. *)
Theorem ice_break_with_returns_summary_and_photo
    (E : externals) (name : string) (log log' : list event) (r : Summary) (p : pyval) :
  ice_break_with E name log = (Ok (r, p), log') ->
  exists u log1 d log2,
    lookup E name log = (Ok u, log1)
    /\ scrape_linkedin_profile E u false log1 = (Ok d, log2)
    /\ chain_invoke E d log2 = (Ok r, log')
    /\ (forall v, assoc_get "photoUrl" d = Some v -> p = v)
    /\ (assoc_get "photoUrl" d = None -> p = PNone).
Proof.
  rewrite ice_break_with_run.
  destruct (output_of _) as [u | e] eqn:Hu; [ | discriminate].
  destruct (person_of _) as [d | e] eqn:Hd; [ | discriminate].
  destruct (parsed E _) as [r' | e] eqn:Hr; [ | discriminate].
  intros H. injection H as Hr' Hp Hlog. subst r' p log'.
  exists u, (log ++ [EvAgent (format_template name)]), d,
    ((log ++ [EvAgent (format_template name)]) ++ [request_event E u false]).
  repeat split.
  - rewrite lookup_run, Hu. reflexivity.
  - rewrite scrape_run, Hd. reflexivity.
  - rewrite chain_run, Hr. rewrite <- !app_assoc. reflexivity.
  - intros v Hv. unfold dict_get. rewrite Hv. reflexivity.
  - intros Hv. unfold dict_get. rewrite Hv. reflexivity.
Qed.

Lemma ice_break_with_returns_summary_and_photo_witness :
  exists u log1 d log2,
    lookup somebody "X" [] = (Ok u, log1)
    /\ scrape_linkedin_profile somebody u false log1 = (Ok d, log2)
    /\ chain_invoke somebody d log2 =
       (Ok {| summary := "<response>"; facts := [] |},
        snd (ice_break_with somebody "X" []))
    /\ (forall v, assoc_get "photoUrl" d = Some v -> PStr "https://img/x.png" = v)
    /\ (assoc_get "photoUrl" d = None -> PStr "https://img/x.png" = PNone).
Proof.
  apply (ice_break_with_returns_summary_and_photo somebody "X" []).
  reflexivity.
Defined.

End PipelineFacts.

(** ** The reasoning-acting loop *)

Section ResolverFacts.

Import Resolver.

Variable model : string -> list ActionStep -> string.
Variable tools : list (string * (string -> string)).




End ResolverFacts.






(** ** The schema-validated extractor *)

Section ExtractorFacts.

Import Json Extractor.





Lemma all_strings_inv (items : list json) (fs : list string) :
  all_strings items = Some fs -> items = map JString fs.
Proof.
  revert fs. induction items as [ | v items IH]; intros fs; cbn.
  - intros H. injection H as <-. reflexivity.
  - destruct v; try discriminate.
    destruct (all_strings items) as [ss | ]; [ | discriminate].
    intros H. injection H as <-. cbn. rewrite (IH ss eq_refl). reflexivity.
Qed.

(** A validated record holds the values of the object itself. *)
Lemma validate_inv (members : list (string * json)) (r : Summary) :
  validate members = Some r ->
  assoc_get "summary" members = Some (JString (summary r))
  /\ assoc_get "facts" members = Some (JArray (map JString (facts r))).
Proof.
  unfold validate.
  destruct (assoc_get "summary" members) as [[ | | | s | | ] | ]; try discriminate.
  destruct (assoc_get "facts" members) as [[ | | | | items | ] | ]; try discriminate.
  destruct (all_strings items) as [fs | ] eqn:Hfs; [ | discriminate].
  intros H. injection H as <-. cbn.
  rewrite (all_strings_inv items fs Hfs). split; reflexivity.
Qed.


Lemma parse_done_inv (raw : string) (r : Summary) :
  parse raw = Done r -> conforms raw (summary r) (facts r).
Proof.
  unfold parse, conforms.
  destruct (locate raw) as [payload | ]; [ | discriminate].
  destruct (loads payload) as [[ | | | | | members] | ] eqn:Hj; try discriminate.
  destruct (validate members) as [r' | ] eqn:Hv; [ | discriminate].
  intros H. injection H as <-.
  destruct (validate_inv members r' Hv) as (Hs & Hf).
  exists payload, members. repeat split; assumption.
Qed.

Lemma parse_failed_inv (raw : string) (c : condition) :
  parse raw = Failed c -> c = SchemaValidationError raw.
Proof.
  unfold parse.
  destruct (locate raw) as [payload | ]; [ | congruence].
  destruct (loads payload) as [[ | | | | | members] | ]; try congruence.
  destruct (validate members); congruence.
Qed.




(** C5. When the response holds no schema-conforming object (no brace
    region, no parseable JSON in it, a required key missing or of the wrong
    type), parsing fails with [SchemaValidationError] carrying the raw
    response; every failure is that one; and a record is returned only with
    the values the object itself holds, never with substituted ones. *)
Theorem extractor_failure_carries_raw_response (raw : string) :
  ((forall s fs, ~ conforms raw s fs) -> parse raw = Failed (SchemaValidationError raw))
  /\ (forall c, parse raw = Failed c -> c = SchemaValidationError raw)
  /\ (forall r, parse raw = Done r -> conforms raw (summary r) (facts r)).
Proof.
  split; [ | split].
  - intros Hnone. destruct (parse raw) as [r | c] eqn:Hp.
    + exfalso. exact (Hnone _ _ (parse_done_inv raw r Hp)).
    + rewrite (parse_failed_inv raw c Hp). reflexivity.
  - apply parse_failed_inv.
  - apply parse_done_inv.
Qed.

Lemma extractor_failure_carries_raw_response_witness :
  parse "I could not find anything." = Failed (SchemaValidationError "I could not find anything.").
Proof.
  apply (proj1 (extractor_failure_carries_raw_response "I could not find anything.")).
  intros s fs (payload & members & Hl & _). vm_compute in Hl. discriminate Hl.
Defined.

End ExtractorFacts.

(** * Further properties of the code *)

(** ** The cleaning filter as a map on dicts *)

Section CleaningLaws.

Import Linkedin.

Lemma filter_idempotent {A : Type} (f : A -> bool) (l : list A) :
  filter f (filter f l) = filter f l.
Proof.
  induction l as [ | a l IH]; cbn; [reflexivity | ].
  destruct (f a) eqn:Hf; cbn; [rewrite Hf, IH | rewrite IH]; reflexivity.
Qed.

(** X1. Cleaning a cleaned document changes nothing. *)
Theorem clean_idempotent (person : pydict) : clean (clean person) = clean person.
Proof.
  unfold clean. apply filter_idempotent.
Qed.

Lemma assoc_get_in_keys {A : Type} (k : string) (d : list (string * A)) (v : A) :
  assoc_get k d = Some v -> In k (map fst d).
Proof.
  induction d as [ | [k' v'] d IH]; cbn; [discriminate | ].
  destruct (String.eqb k k') eqn:Hk.
  - apply String.eqb_eq in Hk. intros _. left. symmetry. exact Hk.
  - intros H. right. exact (IH H).
Qed.

Lemma assoc_get_in {A : Type} (k : string) (d : list (string * A)) (v : A) :
  assoc_get k d = Some v -> In (k, v) d.
Proof.
  induction d as [ | [k' v'] d IH]; cbn [assoc_get In]; [discriminate | ].
  destruct (String.eqb k k') eqn:Hk.
  - apply String.eqb_eq in Hk. subst k'. intros H. injection H as ->. left. reflexivity.
  - intros H. right. exact (IH H).
Qed.

Lemma clean_keys_incl (person : pydict) (k : string) :
  In k (map fst (clean person)) -> In k (map fst person).
Proof.
  unfold clean. induction person as [ | [k' v'] d IH]; cbn [filter map fst In]; [tauto | ].
  destruct (keep (k', v')); cbn [map fst In]; tauto.
Qed.

Lemma assoc_get_absent {A : Type} (k : string) (d : list (string * A)) :
  ~ In k (map fst d) -> assoc_get k d = None.
Proof.
  intros Hk. destruct (assoc_get k d) as [v | ] eqn:Hg; [ | reflexivity].
  exfalso. exact (Hk (assoc_get_in_keys k d v Hg)).
Qed.

(** On a dict, a key reads after cleaning what it read before when its item
    is kept, and nothing when it is not. *)
Lemma assoc_get_clean (person : pydict) (k : string) :
  NoDup (map fst person) ->
  assoc_get k (clean person) =
  match assoc_get k person with
  | Some v => if keep (k, v) then Some v else None
  | None => None
  end.
Proof.
  induction person as [ | [k' v'] d IH]; intros Hnd; [reflexivity | ].
  inversion Hnd as [ | ? ? Hnotin Hnd']; subst.
  unfold clean. cbn [filter]. fold (clean d). cbn [assoc_get].
  destruct (String.eqb k k') eqn:Hk.
  - apply String.eqb_eq in Hk. subst k'.
    destruct (keep (k, v')) eqn:Hkeep.
    + cbn [assoc_get]. rewrite String.eqb_refl. reflexivity.
    + apply assoc_get_absent. intros Hin. exact (Hnotin (clean_keys_incl d k Hin)).
  - destruct (keep (k', v')); [cbn [assoc_get]; rewrite Hk | ]; exact (IH Hnd').
Qed.

(** X2. In a dict (distinct keys), looking a key up after cleaning gives a
    value exactly when the key held that value before, the value is none of
    [[]], [""], [None], and the key is not ["certifications"]: cleaning
    neither changes a value nor lets another one show through. *)
Theorem lookup_after_clean (person : pydict) (k : string) (v : pyval) :
  NoDup (map fst person) ->
  (assoc_get k (clean person) = Some v <->
   assoc_get k person = Some v
   /\ (v <> PList [] /\ v <> PStr "" /\ v <> PNone) /\ k <> "certifications").
Proof.
  intros Hnd. rewrite (assoc_get_clean person k Hnd).
  destruct (assoc_get k person) as [w | ].
  - destruct (keep (k, w)) eqn:Hkeep.
    + split.
      * intros H. injection H as <-. split; [reflexivity | ].
        apply keep_spec. exact Hkeep.
      * intros [H _]. exact H.
    + split; [discriminate | ].
      intros [H Hk]. injection H as <-. apply keep_spec in Hk. congruence.
  - split; [discriminate | intros [H _]; discriminate H].
Qed.

Lemma lookup_after_clean_witness :
  assoc_get "bio" (clean [("bio", PStr ""); ("name", PStr "X")]) = Some (PStr "X") <->
  assoc_get "bio" [("bio", PStr ""); ("name", PStr "X")] = Some (PStr "X")
  /\ (PStr "X" <> PList [] /\ PStr "X" <> PStr "" /\ PStr "X" <> PNone)
  /\ "bio" <> "certifications".
Proof.
  apply (lookup_after_clean [("bio", PStr ""); ("name", PStr "X")] "bio" (PStr "X")).
  repeat constructor; cbn; intuition discriminate.
Defined.

(** X3. Cleaning a dict gives a dict: the keys stay distinct, none is
    added, and the document does not grow. *)
Theorem clean_keeps_keys_distinct (person : pydict) :
  NoDup (map fst person) ->
  NoDup (map fst (clean person))
  /\ (forall k, In k (map fst (clean person)) -> In k (map fst person))
  /\ length (clean person) <= length person.
Proof.
  intros Hnd. split; [ | split].
  - induction person as [ | [k v] d IH]; [constructor | ].
    inversion Hnd as [ | ? ? Hnotin Hnd']; subst.
    unfold clean. cbn [filter]. fold (clean d). destruct (keep (k, v)); cbn [map fst].
    + constructor; [ | exact (IH Hnd')].
      intros Hin. exact (Hnotin (clean_keys_incl d k Hin)).
    + exact (IH Hnd').
  - intros k. apply clean_keys_incl.
  - unfold clean. apply filter_length_le.
Qed.

Lemma clean_keeps_keys_distinct_witness :
  NoDup (map fst (clean [("bio", PStr ""); ("name", PStr "X")]))
  /\ (forall k, In k (map fst (clean [("bio", PStr ""); ("name", PStr "X")])) ->
                In k (map fst [("bio", PStr ""); ("name", PStr "X")]))
  /\ length (clean [("bio", PStr ""); ("name", PStr "X")])
     <= length [("bio", PStr ""); ("name", PStr "X")].
Proof.
  apply (clean_keeps_keys_distinct [("bio", PStr ""); ("name", PStr "X")]).
  repeat constructor; cbn; intuition discriminate.
Defined.

End CleaningLaws.

(** ** [scrape_linkedin_profile]: its request and its outcomes *)

Section ScrapeLaws.

Import Linkedin Doubles.

(** X4. Whatever the answer, a call makes one GET request and no other
    call, with a timeout of 10. In mock mode it goes to the fixture URL with
    no parameters; otherwise to the API endpoint with the key from the
    environment and the URL passed in. So the key is sent to the API
    endpoint only. *)
Theorem scrape_makes_one_request
    (E : externals) (url : pyval) (mock : bool) (log : list event) :
  exists u params,
    snd (scrape_linkedin_profile E url mock log) = log ++ [EvHttpGet u params 10]
    /\ (mock = true -> u = MOCK_URL /\ params = [])
    /\ (mock = false ->
        u = api_endpoint
        /\ params = [("apikey", getenv E "SCRAPIN_API_KEY"); ("linkedInUrl", url)])
    /\ (assoc_get "apikey" params <> None -> u = api_endpoint).
Proof.
  rewrite scrape_run. cbn [snd]. unfold request_event, profile_request.
  destruct mock.
  - exists MOCK_URL, []. repeat split; try discriminate.
    cbn. intros H. exfalso. apply H. reflexivity.
  - eexists _, _. repeat split; discriminate.
Qed.

(** X5. A call returns a document exactly when the request is answered,
    the answer decodes to a JSON object and that object holds an object
    under ["person"]; the document is then that object, cleaned. *)
Theorem scrape_returns_exactly_when
    (E : externals) (url : pyval) (mock : bool) (log : list event) (doc : pydict) :
  fst (scrape_linkedin_profile E url mock log) = Ok doc <->
  exists resp body person,
    fetched E url mock = Ok resp
    /\ json resp = Ok (PDict body)
    /\ assoc_get "person" body = Some (PDict person)
    /\ doc = clean person.
Proof.
  rewrite scrape_run. cbn [fst]. unfold person_of. split.
  - destruct (fetched E url mock) as [resp | e]; [ | discriminate].
    destruct (json resp) as [body | e] eqn:Hj; [ | discriminate].
    destruct body as [ | | | | | | body]; try discriminate.
    cbn. destruct (assoc_get "person" body) as [data | ] eqn:Hp; [ | discriminate].
    destruct data as [ | | | | | | person]; try discriminate.
    cbn. intros H. injection H as <-.
    exists resp, body, person. repeat split; assumption.
  - intros (resp & body & person & Hf & Hj & Hp & ->).
    rewrite Hf, Hj. cbn. rewrite Hp. reflexivity.
Qed.

(** X6. A call fails in four ways only: with what [requests.get] raised,
    with what decoding the body raised, with [AttributeError] on [get] when
    the body is not an object, and with [AttributeError] on [items] when
    what is under ["person"] is not an object. It wraps and retries
    nothing. *)
Theorem scrape_failures
    (E : externals) (url : pyval) (mock : bool) (log : list event) (e : exn) :
  fst (scrape_linkedin_profile E url mock log) = Raise e <->
  fetched E url mock = Raise e
  \/ (exists resp, fetched E url mock = Ok resp /\ json resp = Raise e)
  \/ (exists resp body,
        fetched E url mock = Ok resp /\ json resp = Ok body
        /\ (forall d, body <> PDict d) /\ e = AttributeError "get")
  \/ (exists resp body,
        fetched E url mock = Ok resp /\ json resp = Ok (PDict body)
        /\ (forall person, assoc_get "person" body <> Some (PDict person))
        /\ e = AttributeError "items").
Proof.
  rewrite scrape_run. cbn [fst]. unfold person_of. split.
  - destruct (fetched E url mock) as [resp | e0]; [ | intros H; left; congruence].
    destruct (json resp) as [body | e0] eqn:Hj;
      [ | intros H; right; left; exists resp; split; [reflexivity | congruence]].
    destruct body as [ | b | z | f | s | l | body]; cbn;
      try (intros H; right; right; left; eexists resp, _;
           split; [reflexivity | split; [exact Hj | split; [discriminate | congruence]]]).
    destruct (assoc_get "person" body) as [data | ] eqn:Hp.
    + destruct data as [ | b | z | f | s | l | person]; cbn;
        try (intros H; right; right; right; exists resp, body;
             split; [reflexivity | split; [exact Hj | split; [congruence | congruence]]]).
    + cbn. intros H. right; right; right. exists resp, body.
      split; [reflexivity | split; [exact Hj | split; [ | congruence]]].
      intros person. rewrite Hp. discriminate.
  - intros [H | [(resp & Hf & Hj) | [(resp & body & Hf & Hj & Hb & ->)
                                     | (resp & body & Hf & Hj & Hp & ->)]]].
    + rewrite H. reflexivity.
    + rewrite Hf, Hj. reflexivity.
    + rewrite Hf, Hj. destruct body; try reflexivity. exfalso. exact (Hb d eq_refl).
    + rewrite Hf, Hj. cbn.
      destruct (assoc_get "person" body) as [data | ]; [ | reflexivity].
      destruct data; try reflexivity. exfalso. exact (Hp d eq_refl).
Qed.

End ScrapeLaws.

(** ** [lookup]: what it asks and what it hands back *)

Section LookupLaws.

Import LinkedinLookupAgent.

(** X7. [lookup] calls the executor once, with the prompt rendered for the
    name. It returns a value exactly when the executor returns a dict with
    an ["output"] entry, and then that entry unchanged, whatever it is; a
    dict without the entry gives [KeyError]; what the executor raises is
    raised on. *)
Theorem lookup_outcomes (E : externals) (name : string) (log : list event) :
  snd (lookup E name log) = log ++ [EvAgent (format_template name)]
  /\ (forall v,
        fst (lookup E name log) = Ok v <->
        exists d, agent_executor_invoke E (format_template name) = Ok (PDict d)
                  /\ assoc_get "output" d = Some v)
  /\ (forall d,
        agent_executor_invoke E (format_template name) = Ok (PDict d) ->
        assoc_get "output" d = None ->
        fst (lookup E name log) = Raise (KeyError "output"))
  /\ (forall e,
        agent_executor_invoke E (format_template name) = Raise e ->
        fst (lookup E name log) = Raise e).
Proof.
  rewrite lookup_run. cbn [fst snd]. unfold output_of.
  split; [reflexivity | split; [ | split]].
  - intros v. split.
    + destruct (agent_executor_invoke E (format_template name)) as [result | e];
        [ | discriminate].
      destruct result as [ | | | | | | d]; try discriminate.
      cbn. destruct (assoc_get "output" d) as [x | ] eqn:Ho; [ | discriminate].
      intros H. injection H as <-. exists d. split; [reflexivity | exact Ho].
    + intros (d & Hr & Ho). rewrite Hr. cbn. rewrite Ho. reflexivity.
  - intros d Hr Ho. rewrite Hr. cbn. rewrite Ho. reflexivity.
  - intros e Hr. rewrite Hr. reflexivity.
Qed.

Lemma length_append (a b : string) :
  String.length (a ++ b) = String.length a + String.length b.
Proof.
  induction a as [ | c a IH]; cbn; [reflexivity | rewrite IH; reflexivity].
Qed.

Lemma append_cancel_l (p a b : string) : (p ++ a = p ++ b)%string -> a = b.
Proof.
  induction p as [ | c p IH]; cbn; intros H; [exact H | ].
  injection H as H. exact (IH H).
Qed.

Lemma append_cancel_r (a b s : string) : (a ++ s = b ++ s)%string -> a = b.
Proof.
  revert b. induction a as [ | c a IH]; intros [ | c' b] H; cbn in H.
  - reflexivity.
  - exfalso. apply (f_equal String.length) in H. cbn in H.
    rewrite length_append in H. lia.
  - exfalso. apply (f_equal String.length) in H. cbn in H.
    rewrite length_append in H. lia.
  - injection H as -> H. rewrite (IH b H). reflexivity.
Qed.

(** X8. The prompt names the person and nothing is lost in rendering it:
    two names that differ give prompts that differ. *)
Theorem format_template_injective (name1 name2 : string) :
  name1 <> name2 -> format_template name1 <> format_template name2.
Proof.
  unfold format_template. intros Hne H. apply Hne.
  apply append_cancel_l in H. apply append_cancel_l in H.
  apply append_cancel_r in H. exact H.
Qed.

Lemma format_template_injective_witness :
  format_template "Ada Lovelace" <> format_template "Alan Turing".
Proof.
  apply (format_template_injective "Ada Lovelace" "Alan Turing"). discriminate.
Defined.

End LookupLaws.

(** ** [ice_break_with]: the order of its calls and where it stops *)

Section PipelineLaws.

Import Linkedin LinkedinLookupAgent IceBreaker Doubles.

(** The profile request of a run that resolved [u]. *)
Definition live_request (E : externals) (u : pyval) : event :=
  EvHttpGet api_endpoint [("apikey", getenv E "SCRAPIN_API_KEY"); ("linkedInUrl", u)] 10.

(** X9. A run adds to the log one, two or three calls and always in this
    order: the agent, the live profile request (never the mock fixture),
    the model. It returns only after all three; with fewer it has failed. *)
Theorem ice_break_with_calls_in_order (E : externals) (name : string) (log : list event) :
  exists new,
    snd (ice_break_with E name log) = log ++ new
    /\ ((new = [EvAgent (format_template name)]
         /\ exists e, fst (ice_break_with E name log) = Raise e)
        \/ (exists u,
              new = [EvAgent (format_template name); live_request E u]
              /\ exists e, fst (ice_break_with E name log) = Raise e)
        \/ (exists u d,
              new = [EvAgent (format_template name); live_request E u;
                     EvModel (summary_prompt E d)])).
Proof.
  rewrite ice_break_with_run.
  destruct (output_of _) as [u | e].
  - destruct (person_of _) as [d | e].
    + eexists. split; [reflexivity | ].
      right; right. exists u, d. reflexivity.
    + eexists. split; [reflexivity | ].
      right; left. exists u. split; [reflexivity | exists e; reflexivity].
  - eexists. split; [reflexivity | ].
    left. split; [reflexivity | exists e; reflexivity].
Qed.

(** X10. A run stops at the first stage that fails and raises what that
    stage raised: when [lookup] fails no profile is requested, when the
    fetch fails the model is not called, and when the chain fails that is
    the failure of the run. The log ends where the failing stage left it. *)
Theorem ice_break_with_stops_at_first_failure
    (E : externals) (name : string) (log : list event) (e : exn) :
  (forall log1,
      lookup E name log = (Raise e, log1) ->
      ice_break_with E name log = (Raise e, log1))
  /\ (forall u log1 log2,
      lookup E name log = (Ok u, log1) ->
      scrape_linkedin_profile E u false log1 = (Raise e, log2) ->
      ice_break_with E name log = (Raise e, log2))
  /\ (forall u log1 d log2 log3,
      lookup E name log = (Ok u, log1) ->
      scrape_linkedin_profile E u false log1 = (Ok d, log2) ->
      chain_invoke E d log2 = (Raise e, log3) ->
      ice_break_with E name log = (Raise e, log3)).
Proof.
  unfold ice_break_with. split; [ | split].
  - intros log1 Hl. unfold bind at 1. rewrite Hl. reflexivity.
  - intros u log1 log2 Hl Hs. unfold bind at 1. rewrite Hl.
    unfold bind at 1. rewrite Hs. reflexivity.
  - intros u log1 d log2 log3 Hl Hs Hc. unfold bind at 1. rewrite Hl.
    unfold bind at 1. rewrite Hs. unfold bind. rewrite Hc. reflexivity.
Qed.

(** X11. In what a run returns, the photo is [None] exactly when the
    cleaned document has no ["photoUrl"] key, and it is never the empty
    string or the empty list: cleaning has removed those. *)
Theorem returned_photo_is_none_only_when_absent
    (E : externals) (name : string) (log log' : list event) (r : Summary) (p : pyval) :
  ice_break_with E name log = (Ok (r, p), log') ->
  p <> PStr "" /\ p <> PList []
  /\ exists u log1 d log2,
       lookup E name log = (Ok u, log1)
       /\ scrape_linkedin_profile E u false log1 = (Ok d, log2)
       /\ (p = PNone <-> assoc_get "photoUrl" d = None).
Proof.
  rewrite ice_break_with_run.
  destruct (output_of _) as [u | e] eqn:Hu; [ | discriminate].
  destruct (person_of _) as [d | e] eqn:Hd; [ | discriminate].
  destruct (parsed E _) as [r' | e]; [ | discriminate].
  intros H. injection H as _ Hp _.
  assert (Hclean : exists person, d = clean person).
  { unfold person_of in Hd.
    destruct (fetched E u false) as [resp | ]; [ | discriminate].
    destruct (json resp) as [body | ]; [ | discriminate].
    destruct (py_get body "person") as [data | ]; [ | discriminate].
    destruct (py_items data) as [items | ]; [ | discriminate].
    injection Hd as <-. exists items. reflexivity. }
  destruct Hclean as (person & ->).
  assert (Hval : forall v, assoc_get "photoUrl" (clean person) = Some v ->
                           v <> PList [] /\ v <> PStr "" /\ v <> PNone).
  { intros v Hv.
    assert (Hin : In ("photoUrl", v) (clean person)) by exact (assoc_get_in _ _ _ Hv).
    apply in_clean in Hin. tauto. }
  unfold dict_get in Hp.
  destruct (assoc_get "photoUrl" (clean person)) as [v | ] eqn:Hv.
  - destruct (Hval v eq_refl) as (H1 & H2 & H3). subst p.
    split; [exact H2 | split; [exact H1 | ]].
    exists u, (log ++ [EvAgent (format_template name)]), (clean person),
      ((log ++ [EvAgent (format_template name)]) ++ [request_event E u false]).
    split; [rewrite lookup_run, Hu; reflexivity | ].
    split; [rewrite scrape_run, Hd; reflexivity | ].
    rewrite Hv. split; [intros ->; congruence | discriminate].
  - subst p. split; [discriminate | split; [discriminate | ]].
    exists u, (log ++ [EvAgent (format_template name)]), (clean person),
      ((log ++ [EvAgent (format_template name)]) ++ [request_event E u false]).
    split; [rewrite lookup_run, Hu; reflexivity | ].
    split; [rewrite scrape_run, Hd; reflexivity | ].
    rewrite Hv. split; reflexivity.
Qed.

Lemma returned_photo_is_none_only_when_absent_witness :
  PNone <> PStr "" /\ PNone <> PList []
  /\ exists u log1 d log2,
       lookup nobody "Nobody" [] = (Ok u, log1)
       /\ scrape_linkedin_profile nobody u false log1 = (Ok d, log2)
       /\ (PNone = PNone <-> assoc_get "photoUrl" d = None).
Proof.
  apply (returned_photo_is_none_only_when_absent nobody "Nobody" []
           (snd (ice_break_with nobody "Nobody" []))
           {| summary := "<response>"; facts := [] |} PNone).
  reflexivity.
Defined.

(** X12. When every collaborator answers (the executor with a dict that
    has an ["output"] entry, the profile API with an object that holds a
    [person] object, the model, the parser), the run returns: the parsed
    summary with the photo read from the cleaned document, after exactly
    the three calls. *)
Theorem ice_break_with_returns
    (E : externals) (name : string) (log : list event)
    (res : pydict) (u : pyval) (resp : response) (body person : pydict)
    (message : string) (r : Summary) :
  agent_executor_invoke E (format_template name) = Ok (PDict res) ->
  assoc_get "output" res = Some u ->
  fetched E u false = Ok resp ->
  json resp = Ok (PDict body) ->
  assoc_get "person" body = Some (PDict person) ->
  llm_invoke E (summary_prompt E (clean person)) = Ok message ->
  parser_parse E message = Ok r ->
  ice_break_with E name log =
  (Ok (r, dict_get (clean person) "photoUrl"),
   log ++ [EvAgent (format_template name); live_request E u;
           EvModel (summary_prompt E (clean person))]).
Proof.
  intros Ha Ho Hf Hj Hp Hm Hr.
  rewrite ice_break_with_run. unfold output_of. rewrite Ha. cbn [py_getitem].
  rewrite Ho. unfold person_of. rewrite Hf, Hj. cbn [py_get]. rewrite Hp.
  cbn [py_items]. unfold parsed. rewrite Hm, Hr. reflexivity.
Qed.

Lemma ice_break_with_returns_witness :
  ice_break_with somebody "X" [] =
  (Ok ({| summary := "<response>"; facts := [] |},
       dict_get (clean [("fullName", PStr "X"); ("photoUrl", PStr "https://img/x.png")])
                "photoUrl"),
   [] ++ [EvAgent (format_template "X");
          live_request somebody (PStr "https://www.linkedin.com/in/x/");
          EvModel (summary_prompt somebody
                     (clean [("fullName", PStr "X"); ("photoUrl", PStr "https://img/x.png")]))]).
Proof.
  apply (ice_break_with_returns somebody "X" []
           [("input", PStr (format_template "X"));
            ("output", PStr "https://www.linkedin.com/in/x/")]
           (PStr "https://www.linkedin.com/in/x/")
           {| json := Ok (with_person [("fullName", PStr "X");
                                       ("photoUrl", PStr "https://img/x.png")]) |}
           [("person", PDict [("fullName", PStr "X"); ("photoUrl", PStr "https://img/x.png")])]
           [("fullName", PStr "X"); ("photoUrl", PStr "https://img/x.png")]
           "<response>" {| summary := "<response>"; facts := [] |}); reflexivity.
Defined.

End PipelineLaws.

(** ** app.py: the response of [process] *)

Section AppLaws.

Import Linkedin LinkedinLookupAgent IceBreaker OutputParsers App Doubles.





(** X14. [process] checks nothing and handles nothing: it makes the calls
    of the pipeline and no other, raises whatever the pipeline raises, and
    a form without a name field still sets the agent to work, on the text
    that the absent value renders to. *)
Theorem process_passes_failures_on
    (E : externals) (form : list (string * string)) (log : list event) :
  snd (process E form log) = snd (ice_break_with E (form_name form) log)
  /\ (forall e,
        fst (ice_break_with E (form_name form) log) = Raise e ->
        fst (process E form log) = Raise e)
  /\ (assoc_get "name" form = None ->
      exists rest,
        snd (process E form log) = log ++ EvAgent (format_template "None") :: rest).
Proof.
  unfold process, bind.
  destruct (ice_break_with E (form_name form) log) as [[[r p] | e] log'] eqn:Hrun.
  - split; [reflexivity | split; [discriminate | ]].
    intros Hname. unfold form_name in Hrun. rewrite Hname in Hrun.
    pose proof (ice_break_with_run E "None" log) as Hshape. rewrite Hrun in Hshape.
    destruct (output_of _) as [u | e]; [ | discriminate].
    destruct (person_of _) as [d | e]; [ | discriminate].
    injection Hshape as _ ->. eexists. cbn [snd]. reflexivity.
  - split; [reflexivity | split; [intros e' H; injection H as <-; reflexivity | ]].
    intros Hname. unfold form_name in Hrun. rewrite Hname in Hrun.
    pose proof (ice_break_with_run E "None" log) as Hshape. rewrite Hrun in Hshape.
    destruct (output_of _) as [u | e0].
    + destruct (person_of _) as [d | e1].
      * injection Hshape as _ ->. eexists. cbn [snd]. reflexivity.
      * injection Hshape as _ ->. eexists. cbn [snd]. reflexivity.
    + injection Hshape as _ ->. eexists. cbn [snd]. reflexivity.
Qed.

Lemma map_PStr_injective (fa fb : list string) : map PStr fa = map PStr fb -> fa = fb.
Proof.
  revert fb. induction fa as [ | x fa IH]; intros [ | y fb] H; cbn in H;
    try discriminate; [reflexivity | ].
  injection H as -> H. rewrite (IH fb H). reflexivity.
Qed.

(** X15. [to_dict] loses nothing: summaries that differ give dicts that
    differ. *)
Theorem to_dict_injective (a b : Summary) : a <> b -> to_dict a <> to_dict b.
Proof.
  intros Hne H. apply Hne. unfold to_dict in H.
  destruct a as [sa fa], b as [sb fb]. cbn in H.
  injection H as Hs Hf. apply map_PStr_injective in Hf. congruence.
Qed.

Lemma to_dict_injective_witness :
  to_dict {| summary := "A"; facts := ["f"] |} <> to_dict {| summary := "A"; facts := [] |}.
Proof.
  apply (to_dict_injective {| summary := "A"; facts := ["f"] |}
                           {| summary := "A"; facts := [] |}).
  discriminate.
Defined.

End AppLaws.

(** ** tools/tools.py: the search adapter *)

Section ToolsLaws.

Import Tools.

(** X16. The adapter keeps people apart: over a backend that answers
    different queries for one result differently, different names get
    different answers; the added words never make two names collide. *)
Theorem get_profile_url_tavily_separates_names
    (search_run : nat -> string -> result pyval) (name1 name2 : string) :
  (forall q1 q2, search_run 1 q1 = search_run 1 q2 -> q1 = q2) ->
  name1 <> name2 ->
  get_profile_url_tavily search_run name1 <> get_profile_url_tavily search_run name2.
Proof.
  intros Hinj Hne H. apply Hne. unfold get_profile_url_tavily in H.
  apply Hinj in H. exact (append_cancel_r name1 name2 _ H).
Qed.

Lemma get_profile_url_tavily_separates_names_witness :
  get_profile_url_tavily echo "Ada Lovelace" <> get_profile_url_tavily echo "Alan Turing".
Proof.
  apply (get_profile_url_tavily_separates_names echo "Ada Lovelace" "Alan Turing").
  - intros q1 q2 H. injection H as H. exact H.
  - discriminate.
Defined.

End ToolsLaws.
